(** * Goal pacing of the sales dashboard (server.js, calcularMetaDia)

    Shallow embedding of the date helpers, of [calcularMetaDia], of the
    authentication middleware and of the [/api/metas] routes of the
    dashboard backend, plus the [calcularMetaDinamica] variant.

    Modelling choices:
    - a JavaScript [Date] is its time value, here in minutes since the
      epoch (UTC); the process time zone is a fixed offset [tz] in minutes
      (local time = UTC + [tz]), as in a zone without daylight saving;
    - a date string ["YYYY-MM-DD"] is its triple of fields;
    - JavaScript numbers and PostgreSQL DECIMAL values are rationals [Q];
    - the PostgreSQL tables are lists of rows. *)

From Stdlib Require Import ZArith QArith Qminmax List String Bool Lia.
Import ListNotations.
Open Scope Z_scope.

(* ------------------------------------------------------------------ *)
(** ** Calendar arithmetic (the ECMAScript day/date algorithms) *)

Record data := mkData { ano : Z; mes : Z; dia : Z }.

(** Days since 1970-01-01 of a proleptic Gregorian date (month 1..12). *)
Definition days_from_civil (y m d : Z) : Z :=
  let y' := if m <=? 2 then y - 1 else y in
  let era := y' / 400 in
  let yoe := y' - era * 400 in
  let mp := (m + 9) mod 12 in
  let doy := (153 * mp + 2) / 5 + d - 1 in
  let doe := yoe * 365 + yoe / 4 - yoe / 100 + doy in
  era * 146097 + doe - 719468.

(** Inverse of [days_from_civil]. *)
Definition civil_from_days (z0 : Z) : data :=
  let z := z0 + 719468 in
  let era := z / 146097 in
  let doe := z - era * 146097 in
  let yoe := (doe - doe / 1460 + doe / 36524 - doe / 146096) / 365 in
  let y := yoe + era * 400 in
  let doy := doe - (365 * yoe + yoe / 4 - yoe / 100) in
  let mp := (5 * doy + 2) / 153 in
  let d := doy - (153 * mp + 2) / 5 + 1 in
  let m := if mp <? 10 then mp + 3 else mp - 9 in
  mkData (if m <=? 2 then y + 1 else y) m d.

Definition dia_numero (x : data) : Z := days_from_civil (ano x) (mes x) (dia x).

Definition minutos_dia : Z := 1440.

(** Week day of a day number: 0 = Sunday, ..., 6 = Saturday
    (1970-01-01 was a Thursday). *)
Definition dia_semana_de (n : Z) : Z := (n + 4) mod 7.

Section JsDate.
(** Offset of the process time zone, in minutes. *)
Variable tz : Z.

(** [new Date("YYYY-MM-DD")]: a date-only ISO string is read as UTC
    midnight. *)
Definition new_Date_iso (x : data) : Z := dia_numero x * minutos_dia.

(** [new Date("YYYY-MM-DD" + "T00:00:00")]: a date-time string without
    offset is read as local midnight. *)
Definition new_Date_local_iso (x : data) : Z := dia_numero x * minutos_dia - tz.

(** MakeFullYear: a year argument from 0 to 99 given to the [Date]
    constructor stands for 1900 + year. *)
Definition ano_completo (y : Z) : Z :=
  if (0 <=? y) && (y <=? 99) then 1900 + y else y.

(** [new Date(ano, mes, dia)] with a 0-based month, out-of-range
    months and days rolling over as in MakeDay. *)
Definition new_Date_campos (y m0 d : Z) : Z :=
  let y' := ano_completo y in
  (days_from_civil (y' + m0 / 12) (m0 mod 12 + 1) 1 + d - 1) * minutos_dia - tz.

(** Local calendar day number of a time value. *)
Definition dia_local (t : Z) : Z := (t + tz) / minutos_dia.

Definition getDay (t : Z) : Z := dia_semana_de (dia_local t).
Definition getFullYear (t : Z) : Z := ano (civil_from_days (dia_local t)).
(** 0-based, as in JavaScript. *)
Definition getMonth (t : Z) : Z := mes (civil_from_days (dia_local t)) - 1.

(** [d.setDate(d.getDate() + 1)]: next local day, same local time. *)
Definition proximo_dia (t : Z) : Z := t + minutos_dia.

(** [d.toISOString().slice(0, 10)]: the UTC date of a time value. *)
Definition toISODate (t : Z) : data := civil_from_days (t / minutos_dia).

(** The [while (d <= end)] loop of [contarDiasUteis]; [fuel] is the
    number of iterations the loop performs. *)
Fixpoint contar_loop (fuel : nat) (d fim count : Z) : Z :=
  match fuel with
  | O => count
  | S f =>
      if d <=? fim then
        let count' := if negb (getDay d =? 0) then count + 1 else count in
        contar_loop f (proximo_dia d) fim count'
      else count
  end.

(** [contarDiasUteis(startDate, endDate)]. *)
Definition contarDiasUteis (startDate endDate : data) : Z :=
  let d := new_Date_iso startDate in
  let fim := new_Date_iso endDate in
  contar_loop (Z.to_nat ((fim - d) / minutos_dia + 1)) d fim 0.
End JsDate.

(** The claim's notion: number of days of the closed interval whose week
    day is not Sunday. *)
Fixpoint dias_nao_domingo (n : nat) (primeiro : Z) : Z :=
  match n with
  | O => 0
  | S k => (if negb (dia_semana_de primeiro =? 0) then 1 else 0)
           + dias_nao_domingo k (primeiro + 1)
  end.

Definition contagem_esperada (de ate : data) : Z :=
  dias_nao_domingo (Z.to_nat (dia_numero ate - dia_numero de + 1)) (dia_numero de).

Example ex_sunday : dia_semana_de (dia_numero (mkData 2024 3 10)) = 0.
Proof. reflexivity. Qed.
Example ex_count_utc : contarDiasUteis 0 (mkData 2024 3 10) (mkData 2024 3 31) = 18.
Proof. reflexivity. Qed.
Example ex_count_sp : contarDiasUteis (-180) (mkData 2024 3 10) (mkData 2024 3 31) = 19.
Proof. reflexivity. Qed.
Example ex_count_exp : contagem_esperada (mkData 2024 3 10) (mkData 2024 3 31) = 18.
Proof. reflexivity. Qed.

(* ------------------------------------------------------------------ *)
(** ** Database rows (tables [vendedoras], [vendas], [metas]) *)

Definition data_eqb (x y : data) : bool :=
  (ano x =? ano y) && (mes x =? mes y) && (dia x =? dia y).

Record vendedora := mkVendedora {
  vid : Z;
  meta_padrao : option Q;   (** DECIMAL(10,2), nullable *)
  meta_mensal : option Q;   (** DECIMAL(10,2), nullable *)
  ativo : bool
}.

Record venda := mkVenda {
  venda_vendedora : Z;
  valor : Q;
  data_venda : Z            (** TIMESTAMP (wall clock), minutes *)
}.

Record meta_row := mkMeta {
  meta_vendedora : Z;
  valor_meta : Q;
  data_meta : data
}.

Record db := mkDb {
  vendedoras : list vendedora;
  vendas : list venda;
  metas : list meta_row
}.

(** [Number(x || 0)] on a nullable DECIMAL column (node-postgres returns
    DECIMAL as a non-empty string, so only NULL falls back to 0). *)
Definition numero_ou_zero (x : option Q) : Q :=
  match x with Some q => q | None => 0%Q end.

(** Storing a value in a DECIMAL(10,2) column: rounded to 2 decimal
    places, half away from zero; a value of 10^8 or more in magnitude is a
    "numeric field overflow" error. *)
Definition decimal_10_2 (q : Q) : option Q :=
  let n := Qnum q * 100 in
  let d := Zpos (Qden q) in
  let c := Z.sgn n * ((2 * Z.abs n + d) / (2 * d)) in
  if Z.abs c <? 10 ^ 10 then Some (Qmake c 100) else None.

(** [COALESCE(SUM(valor), 0)] over the rows that pass a filter. *)
Definition soma_valor (vs : list venda) : Q :=
  fold_right (fun v acc => Qplus (valor v) acc) 0%Q vs.

(* ------------------------------------------------------------------ *)
(** ** [calcularMetaDia] *)

Record MetaCalc := mkMetaCalc {
  metaDia : Q;
  metaMensal : Q;
  vendidoNoMes : Q;
  faltaNoMes : Q
}.

Section Servidor.
Variable tz : Z.

(** [SELECT meta_mensal, meta_padrao FROM vendedoras WHERE id = $1] *)
Definition buscar_vendedora (b : db) (id : Z) : option vendedora :=
  find (fun v => vid v =? id) (vendedoras b).

(** The sales query: [vendedora_id = $1 AND data_venda >= $2 AND
    data_venda < ($3::date + INTERVAL '1 day')]; the JavaScript [Date]
    [$2] is sent as local wall-clock time. *)
Definition vendas_do_mes (b : db) (id : Z) (inicioMes : Z) (dataISO : data) : Q :=
  soma_valor
    (filter (fun v => (venda_vendedora v =? id)
                      && (inicioMes + tz <=? data_venda v)
                      && (data_venda v <? (dia_numero dataISO + 1) * minutos_dia))
            (vendas b)).

(** [inicioMes = new Date(ano, mes, 1)] where [ano] and [mes] come from
    [new Date(dataISO + 'T00:00:00')]. *)
Definition inicio_mes (dataISO : data) : Z :=
  let dt := new_Date_local_iso tz dataISO in
  new_Date_campos tz (getFullYear tz dt) (getMonth tz dt) 1.

(** [fimMes = new Date(ano, mes + 1, 0)], the last day of the month. *)
Definition fim_mes (dataISO : data) : Z :=
  let dt := new_Date_local_iso tz dataISO in
  new_Date_campos tz (getFullYear tz dt) (getMonth tz dt + 1) 0.

(** [contarDiasUteis(dataISO, fimMes.toISOString().slice(0, 10))] *)
Definition dias_uteis_restantes (dataISO : data) : Z :=
  contarDiasUteis tz dataISO (toISODate (fim_mes dataISO)).

(** [calcularMetaDia(vendedoraId, dataISO)].  Amounts are exact rationals:
    the DECIMAL values and the [SUM] of Postgres are exact, while the code
    goes on in binary64 after [Number(...)]; that rounding is not
    modelled. *)
Definition calcularMetaDia (b : db) (vendedoraId : Z) (dataISO : data) : MetaCalc :=
  let inicioMes := inicio_mes dataISO in
  match buscar_vendedora b vendedoraId with
  | None => mkMetaCalc 0 0 0 0
  | Some v =>
      let metaMensal := numero_ou_zero (meta_mensal v) in
      let metaPadrao := numero_ou_zero (meta_padrao v) in
      if Qeq_bool metaMensal 0 then mkMetaCalc metaPadrao 0 0 0
      else
        let vendidoNoMes := vendas_do_mes b vendedoraId inicioMes dataISO in
        let falta0 := Qminus metaMensal vendidoNoMes in
        let faltaNoMes := if negb (Qle_bool 0 falta0) then 0%Q else falta0 in
        let diasUteisRestantes := dias_uteis_restantes dataISO in
        let metaDia0 :=
          if 0 <? diasUteisRestantes
          then Qdiv faltaNoMes (inject_Z diasUteisRestantes) else 0%Q in
        let metaDia := if Qeq_bool faltaNoMes 0 then 0%Q else metaDia0 in
        mkMetaCalc metaDia metaMensal vendidoNoMes faltaNoMes
  end.

(* ---------------------------------------------------------------- *)
(** ** Authentication middleware and the [/api/metas] routes *)

(** The [Authorization] header: absent, a token [jwt.verify] rejects, or
    a valid token carrying a seller id. *)
Inductive cabecalho := SemToken | TokenInvalido | TokenValido (id : Z).

Inductive resposta :=
| Erro (status : Z) (erro : string)
| MetaDoDia (valor_meta meta_mensal vendido_no_mes falta_no_mes : Q)
| MetaSalva (row : meta_row).

(** [autenticar]: the seller must exist and be active. *)
Definition autenticar (b : db) (h : cabecalho) : resposta + vendedora :=
  match h with
  | SemToken => inl (Erro 401 "Token não enviado")
  | TokenInvalido => inl (Erro 401 "Token inválido")
  | TokenValido id =>
      match find (fun v => (vid v =? id) && ativo v) (vendedoras b) with
      | None => inl (Erro 401 "Usuário não encontrado")
      | Some v => inr v
      end
  end.

(** [SELECT valor_meta FROM metas WHERE vendedora_id = $1 AND data_meta = $2] *)
Definition buscar_meta (rows : list meta_row) (id : Z) (d : data) : option Q :=
  match find (fun r => (meta_vendedora r =? id) && data_eqb (data_meta r) d) rows with
  | Some r => Some (valor_meta r)
  | None => None
  end.

(** [GET /api/metas/:data] *)
Definition get_metas (b : db) (h : cabecalho) (d : data) : resposta :=
  match autenticar b h with
  | inl e => e
  | inr v =>
      let calc := calcularMetaDia b (vid v) d in
      let valorMetaDia :=
        match buscar_meta (metas b) (vid v) d with
        | Some q => q
        | None => metaDia calc
        end in
      MetaDoDia valorMetaDia (metaMensal calc) (vendidoNoMes calc) (faltaNoMes calc)
  end.

(** [INSERT ... ON CONFLICT (vendedora_id, data_meta) DO UPDATE SET
    valor_meta = EXCLUDED.valor_meta]: the conflicting row is updated in
    place, otherwise a new row is added. *)
Fixpoint upsert_meta (rows : list meta_row) (r : meta_row) : list meta_row :=
  match rows with
  | [] => [r]
  | r0 :: rs =>
      if (meta_vendedora r0 =? meta_vendedora r) && data_eqb (data_meta r0) (data_meta r)
      then mkMeta (meta_vendedora r0) (valor_meta r) (data_meta r0) :: rs
      else r0 :: upsert_meta rs r
  end.

(** The statement itself: DECIMAL(10,2) coercion, foreign key on
    [vendedora_id], then the upsert; an error leaves the table as it was. *)
Definition inserir_meta (b : db) (id : Z) (valorMeta : Q) (d : data) : option (meta_row * db) :=
  match decimal_10_2 valorMeta with
  | None => None
  | Some v =>
      match buscar_vendedora b id with
      | None => None
      | Some _ =>
          let rows := upsert_meta (metas b) (mkMeta id v d) in
          Some (mkMeta id v d, mkDb (vendedoras b) (vendas b) rows)
      end
  end.

(** [POST /api/metas] *)
Definition post_metas (b : db) (h : cabecalho) (valorMeta : Q) (d : data) : resposta * db :=
  match autenticar b h with
  | inl e => (e, b)
  | inr v =>
      match inserir_meta b (vid v) valorMeta d with
      | None => (Erro 500 "Erro ao salvar meta", b)
      | Some (row, b') => (MetaSalva row, b')
      end
  end.
End Servidor.

(* ------------------------------------------------------------------ *)
(** ** [POST /api/metas] of backend/server.js *)

(** backend/server.js holds two servers one after the other; the one from
    line 317 on declares [express], [app] and [autenticar] again, so the
    file as a whole does not load.  The route of line 730 is that of the
    second server, registered with the second [autenticar] (line 434). *)

Section ServidorBackend.
(** The second [autenticar] of backend/server.js only verifies the token:
    no token after ["Bearer"] answers 401 "Token não fornecido". *)
Definition autenticar_backend (h : cabecalho) : resposta + Z :=
  match h with
  | SemToken => inl (Erro 401 "Token não fornecido")
  | TokenInvalido => inl (Erro 401 "Token inválido")
  | TokenValido id => inr id
  end.

(** [valorMeta] is a JSON number of the body: [express.json()] has already
    made it a binary64 value, and [valorMeta] is the decimal node-postgres
    sends for it.  On a number, [Number(valorMeta || 0)] is that same
    value ([0 || 0] is 0).  A string [valorMeta], which [Number] would
    round to binary64, is not modelled.  [if (!data)] answers 400. *)
Definition post_metas_backend (b : db) (h : cabecalho) (valorMeta : Q)
    (d : option data) : resposta * db :=
  match autenticar_backend h with
  | inl e => (e, b)
  | inr id =>
      match d with
      | None => (Erro 400 "Data é obrigatória", b)
      | Some d =>
          match inserir_meta b id valorMeta d with
          | None => (Erro 500 "Erro ao salvar meta", b)
          | Some (row, b') => (MetaSalva row, b')
          end
      end
  end.
End ServidorBackend.

(* ------------------------------------------------------------------ *)
(** ** [calcularMetaDinamica] (the variant with a shop-wide monthly goal) *)

Section MetaDinamica.
Variable tz : Z.
(** The time value of [new Date()]. *)
Variable agora : Z.

Definition getDate (t : Z) : Z := dia (civil_from_days (dia_local tz t)).

Fixpoint dias_loop (fuel : nat) (a m d ultimoDia : Z) : Z :=
  match fuel with
  | O => 0
  | S f =>
      if d <=? ultimoDia then
        (if negb (getDay tz (new_Date_campos tz a m d) =? 0) then 1 else 0)
        + dias_loop f a m (d + 1) ultimoDia
      else 0
  end.

(** [diasUteisRestantes()]: the selling days from today to the end of
    the month, today included. *)
Definition diasUteisRestantes : Z :=
  let a := getFullYear tz agora in
  let m := getMonth tz agora in
  let ultimoDia := getDate (new_Date_campos tz a (m + 1) 0) in
  let d0 := getDate agora in
  dias_loop (Z.to_nat (ultimoDia - d0 + 1)) a m d0 ultimoDia.

(** [Math.max(restante / diasRestantes, 0)] *)
Definition calcularMetaDinamica (metaMensal vendidoAteHoje : Q) : Q :=
  let diasRestantes := diasUteisRestantes in
  if diasRestantes <=? 0 then metaMensal
  else
    let restante := Qminus metaMensal vendidoAteHoje in
    let q := Qdiv restante (inject_Z diasRestantes) in
    if Qle_bool 0 q then q else 0%Q.
End MetaDinamica.

(* ------------------------------------------------------------------ *)
(** ** Sample data *)

Definition d_2024_03_10 := mkData 2024 3 10.
Definition d_2024_03_11 := mkData 2024 3 11.
Definition d_2024_03_31 := mkData 2024 3 31.

(** A seller with a monthly goal of 30000, 10000 sold on 2024-03-05. *)
Definition vendedora_1 := mkVendedora 1 (Some 15000%Q) (Some 30000%Q) true.
Definition venda_1 := mkVenda 1 10000%Q (dia_numero (mkData 2024 3 5) * minutos_dia + 600).
Definition db_exemplo := mkDb [vendedora_1] [venda_1] [].

Example ex_meta_utc :
  calcularMetaDia 0 db_exemplo 1 d_2024_03_10
  = mkMetaCalc (Qdiv 20000 (inject_Z 18)) 30000 10000 20000.
Proof. vm_compute. reflexivity. Qed.

(* ------------------------------------------------------------------ *)
(** ** Properties of [calcularMetaDia] *)

Section PropriedadesMetaDia.
Variable tz : Z.

Lemma calcularMetaDia_sem_vendedora b id d :
  buscar_vendedora b id = None ->
  calcularMetaDia tz b id d = mkMetaCalc 0 0 0 0.
Proof. intros H. unfold calcularMetaDia. now rewrite H. Qed.

Lemma calcularMetaDia_fallback b id d v :
  buscar_vendedora b id = Some v ->
  (numero_ou_zero (meta_mensal v) == 0)%Q ->
  calcularMetaDia tz b id d = mkMetaCalc (numero_ou_zero (meta_padrao v)) 0 0 0.
Proof.
  intros Hv Hm. unfold calcularMetaDia. rewrite Hv.
  apply Qeq_bool_iff in Hm. now rewrite Hm.
Qed.

(** The pacing path, written out. *)
Lemma calcularMetaDia_pacing b id d v :
  buscar_vendedora b id = Some v ->
  ~ (numero_ou_zero (meta_mensal v) == 0)%Q ->
  let M := numero_ou_zero (meta_mensal v) in
  let R := vendas_do_mes tz b id (inicio_mes tz d) d in
  let F := if negb (Qle_bool 0 (M - R)) then 0%Q else (M - R)%Q in
  let n := dias_uteis_restantes tz d in
  calcularMetaDia tz b id d =
    mkMetaCalc (if Qeq_bool F 0 then 0%Q
                else if 0 <? n then (F / inject_Z n)%Q else 0%Q) M R F.
Proof.
  intros Hv Hm. unfold calcularMetaDia. rewrite Hv.
  destruct (Qeq_bool (numero_ou_zero (meta_mensal v)) 0) eqn:E.
  - apply Qeq_bool_iff in E. contradiction.
  - reflexivity.
Qed.

(** [faltaNoMes] is [max(metaMensal - vendidoNoMes, 0)] on the pacing path. *)
Lemma falta_max b id d v :
  buscar_vendedora b id = Some v ->
  ~ (numero_ou_zero (meta_mensal v) == 0)%Q ->
  let c := calcularMetaDia tz b id d in
  (faltaNoMes c == Qmax (metaMensal c - vendidoNoMes c) 0)%Q
  /\ (0 <= faltaNoMes c)%Q.
Proof.
  intros Hv Hm. cbv zeta. rewrite (calcularMetaDia_pacing b id d v Hv Hm). simpl.
  set (x := (numero_ou_zero (meta_mensal v) - vendas_do_mes tz b id (inicio_mes tz d) d)%Q).
  destruct (Qle_bool 0 x) eqn:E; simpl.
  - apply Qle_bool_iff in E. split; [|exact E].
    rewrite Q.max_l; [reflexivity | exact E].
  - assert (Hx : (x <= 0)%Q).
    { apply Qlt_le_weak, Qnot_le_lt. intro H. apply Qle_bool_iff in H. congruence. }
    split; [|apply Qle_refl].
    rewrite Q.max_r; [reflexivity | exact Hx].
Qed.
End PropriedadesMetaDia.

Lemma autenticar_find b h v :
  autenticar b h = inr v ->
  exists id, h = TokenValido id /\ vid v = id /\ ativo v = true
             /\ In v (vendedoras b).
Proof.
  destruct h as [| |id]; simpl; try discriminate.
  destruct (find _ _) as [w|] eqn:E; [|discriminate]. intros [= <-].
  apply find_some in E as [Hin Hp]. apply andb_prop in Hp as [Hid Ha].
  apply Z.eqb_eq in Hid. eauto.
Qed.

Lemma autenticar_buscar b h v :
  autenticar b h = inr v -> exists w, buscar_vendedora b (vid v) = Some w.
Proof.
  intros H. apply autenticar_find in H as (id & _ & _ & _ & Hin).
  unfold buscar_vendedora.
  destruct (find (fun w => vid w =? vid v) (vendedoras b)) eqn:E; [eauto|].
  exfalso. eapply find_none in E; [|exact Hin]. rewrite Z.eqb_refl in E. discriminate.
Qed.

(** C1: when a [metas] row exists for the authenticated seller and the
    requested date, [GET /api/metas/:data] answers that row's value as the
    daily goal, whatever [calcularMetaDia] computed, while the monthly goal,
    the sold amount and the remainder are those of [calcularMetaDia]. *)
Theorem get_metas_override_prevalece tz b h v d q :
  autenticar b h = inr v ->
  buscar_meta (metas b) (vid v) d = Some q ->
  let c := calcularMetaDia tz b (vid v) d in
  get_metas tz b h d = MetaDoDia q (metaMensal c) (vendidoNoMes c) (faltaNoMes c).
Proof. intros Ha Hm. unfold get_metas. now rewrite Ha, Hm. Qed.

Definition db_com_override :=
  mkDb [vendedora_1] [venda_1] [mkMeta 1 500%Q d_2024_03_10].

Lemma get_metas_override_prevalece_witness :
  autenticar db_com_override (TokenValido 1) = inr vendedora_1
  /\ buscar_meta (metas db_com_override) 1 d_2024_03_10 = Some 500%Q
  /\ metaDia (calcularMetaDia 0 db_com_override 1 d_2024_03_10)
     = Qdiv 20000 (inject_Z 18)
  /\ get_metas 0 db_com_override (TokenValido 1) d_2024_03_10
     = MetaDoDia 500 30000 10000 20000.
Proof.
  split; [reflexivity|]. split; [reflexivity|]. split; [vm_compute; reflexivity|].
  rewrite (get_metas_override_prevalece 0 db_com_override (TokenValido 1)
             vendedora_1 d_2024_03_10 500 eq_refl eq_refl).
  vm_compute. reflexivity.
Defined.

(** C3: for a seller whose monthly goal is 0 or NULL, [calcularMetaDia]
    returns the fixed daily goal [meta_padrao] as [metaDia], whatever the
    seller sold. *)
Theorem calcularMetaDia_meta_mensal_zero tz b id d v :
  buscar_vendedora b id = Some v ->
  (numero_ou_zero (meta_mensal v) == 0)%Q ->
  metaDia (calcularMetaDia tz b id d) = numero_ou_zero (meta_padrao v).
Proof. intros Hv Hm. now rewrite (calcularMetaDia_fallback tz b id d v Hv Hm). Qed.

Definition vendedora_2 := mkVendedora 2 (Some 800%Q) None true.
Definition db_fallback :=
  mkDb [vendedora_2]
       [mkVenda 2 5000%Q (dia_numero (mkData 2024 3 5) * minutos_dia + 600)] [].

Lemma calcularMetaDia_meta_mensal_zero_witness :
  buscar_vendedora db_fallback 2 = Some vendedora_2
  /\ metaDia (calcularMetaDia 0 db_fallback 2 d_2024_03_10) = 800%Q.
Proof.
  split; [reflexivity|].
  apply (calcularMetaDia_meta_mensal_zero 0 db_fallback 2 d_2024_03_10 vendedora_2);
    reflexivity.
Defined.

(** C4: on the pacing path, once the seller sold at least the monthly goal,
    [faltaNoMes] is [max(metaMensal - vendidoNoMes, 0)] (so not negative)
    and [metaDia] is 0. *)
Theorem calcularMetaDia_meta_batida tz b id d v :
  buscar_vendedora b id = Some v ->
  (0 < numero_ou_zero (meta_mensal v))%Q ->
  let c := calcularMetaDia tz b id d in
  (metaMensal c <= vendidoNoMes c)%Q ->
  (faltaNoMes c == Qmax (metaMensal c - vendidoNoMes c) 0)%Q
  /\ (0 <= faltaNoMes c)%Q /\ metaDia c = 0%Q.
Proof.
  intros Hv Hpos. cbv zeta. intros Hle.
  assert (Hm : ~ (numero_ou_zero (meta_mensal v) == 0)%Q).
  { intro E. apply Qlt_not_eq in Hpos. apply Hpos. symmetry. exact E. }
  destruct (falta_max tz b id d v Hv Hm) as [Hf Hf0].
  split; [exact Hf|]. split; [exact Hf0|].
  revert Hle Hf. rewrite (calcularMetaDia_pacing tz b id d v Hv Hm). cbn [metaDia metaMensal vendidoNoMes faltaNoMes].
  set (M := numero_ou_zero (meta_mensal v)).
  set (R := vendas_do_mes tz b id (inicio_mes tz d) d).
  intros Hle Hf.
  assert (HMR : (M - R <= 0)%Q).
  { apply (Qplus_le_l _ _ R). setoid_replace (M - R + R)%Q with M by ring.
    setoid_replace (0 + R)%Q with R by ring. exact Hle. }
  rewrite (Q.max_r _ _ HMR) in Hf.
  apply Qeq_bool_iff in Hf. now rewrite Hf.
Qed.

Definition vendedora_3 := mkVendedora 3 (Some 15000%Q) (Some 30000%Q) true.
Definition db_meta_batida :=
  mkDb [vendedora_3]
       [mkVenda 3 35000%Q (dia_numero (mkData 2024 3 5) * minutos_dia + 600)] [].

Lemma calcularMetaDia_meta_batida_witness :
  let c := calcularMetaDia 0 db_meta_batida 3 d_2024_03_10 in
  (vendidoNoMes c == 35000)%Q
  /\ (faltaNoMes c == Qmax (metaMensal c - vendidoNoMes c) 0)%Q
  /\ (0 <= faltaNoMes c)%Q /\ metaDia c = 0%Q.
Proof.
  cbv zeta. split; [vm_compute; reflexivity|].
  apply (calcularMetaDia_meta_batida 0 db_meta_batida 3 d_2024_03_10 vendedora_3);
    [reflexivity | reflexivity | vm_compute; discriminate].
Defined.

(** C5: on the pacing path of [calcularMetaDia], when the count of selling
    days it computes ([contarDiasUteis] from the date to the end of the
    month) is not positive, [metaDia] is 0, never the remainder nor a
    division by zero; [calcularMetaDinamica], whenever its
    [diasUteisRestantes()] is not positive, returns the monthly goal
    unchanged. *)
Theorem calcularMetaDia_sem_dias_uteis :
  (forall tz b id d v,
     buscar_vendedora b id = Some v ->
     ~ (numero_ou_zero (meta_mensal v) == 0)%Q ->
     dias_uteis_restantes tz d <= 0 ->
     metaDia (calcularMetaDia tz b id d) = 0%Q)
  /\ (forall tz agora metaMensal vendidoAteHoje,
        diasUteisRestantes tz agora <= 0 ->
        calcularMetaDinamica tz agora metaMensal vendidoAteHoje = metaMensal).
Proof.
  split.
  - intros tz b id d v Hv Hm Hn. rewrite (calcularMetaDia_pacing tz b id d v Hv Hm).
    cbn [metaDia]. destruct (Qeq_bool _ 0); [reflexivity|].
    replace (0 <? dias_uteis_restantes tz d) with false by (symmetry; apply Z.ltb_ge; exact Hn).
    reflexivity.
  - intros tz agora M V Hn. unfold calcularMetaDinamica.
    replace (diasUteisRestantes tz agora <=? 0) with true by (symmetry; apply Z.leb_le; exact Hn).
    reflexivity.
Qed.

Lemma calcularMetaDia_sem_dias_uteis_witness :
  let c := calcularMetaDia 0 db_exemplo 1 d_2024_03_31 in
  let agora := dia_numero d_2024_03_31 * minutos_dia + 720 in
  dias_uteis_restantes 0 d_2024_03_31 = 0
  /\ faltaNoMes c = 20000%Q /\ metaDia c = 0%Q
  /\ diasUteisRestantes (-180) agora = 0
  /\ calcularMetaDinamica (-180) agora 30000 10000 = 30000%Q.
Proof.
  cbv zeta. split; [reflexivity|]. split; [vm_compute; reflexivity|]. split.
  - apply (proj1 calcularMetaDia_sem_dias_uteis 0 db_exemplo 1 d_2024_03_31 vendedora_1);
      [reflexivity | vm_compute; discriminate | vm_compute; discriminate].
  - split; [vm_compute; reflexivity|].
    apply (proj2 calcularMetaDia_sem_dias_uteis); vm_compute; discriminate.
Defined.

(** C5 (the claim as stated): [calcularMetaDinamica], on the last day of a
    month that is a Sunday (no selling day left), returns the whole monthly
    goal, not 0. *)
Lemma calcularMetaDinamica_sem_dias_uteis_devolve_meta :
  let agora := dia_numero d_2024_03_31 * minutos_dia + 720 in
  diasUteisRestantes 0 agora = 0
  /\ calcularMetaDinamica 0 agora 30000 10000 = 30000%Q.
Proof. vm_compute. split; reflexivity. Qed.

(** C7: [GET /api/metas/:data] for a token whose seller does not exist or
    is inactive fails in [autenticar] with 401 "Usuário não encontrado";
    it never answers a computed goal. *)
Theorem get_metas_vendedora_inexistente_ou_inativa tz b id d :
  (forall v, In v (vendedoras b) -> vid v = id -> ativo v = false) ->
  get_metas tz b (TokenValido id) d = Erro 401 "Usuário não encontrado".
Proof.
  intros H. unfold get_metas, autenticar.
  destruct (find (fun v => (vid v =? id) && ativo v) (vendedoras b)) eqn:E;
    [|reflexivity].
  apply find_some in E as [Hin Hp]. apply andb_prop in Hp as [Hid Ha].
  apply Z.eqb_eq in Hid. rewrite (H v Hin Hid) in Ha. discriminate.
Qed.

Definition db_inativa :=
  mkDb [mkVendedora 4 (Some 15000%Q) (Some 30000%Q) false] [] [].

Lemma get_metas_vendedora_inexistente_ou_inativa_witness :
  get_metas 0 db_inativa (TokenValido 4) d_2024_03_10 = Erro 401 "Usuário não encontrado"
  /\ get_metas 0 db_inativa (TokenValido 9) d_2024_03_10 = Erro 401 "Usuário não encontrado".
Proof.
  split; apply get_metas_vendedora_inexistente_ou_inativa;
    intros v [<-|[]]; simpl; [reflexivity | discriminate].
Defined.

(** C10: for a seller whose monthly goal is NULL or 0, [calcularMetaDia]
    does not depend on the [vendas] table and returns 0 as sold amount and
    as remainder, so [GET /api/metas/:data] answers [vendido_no_mes = 0]
    and [falta_no_mes = 0] even when the seller has sales in the month. *)
Theorem get_metas_fallback_zera_vendido tz b h v w d :
  autenticar b h = inr v ->
  buscar_vendedora b (vid v) = Some w ->
  (numero_ou_zero (meta_mensal w) == 0)%Q ->
  calcularMetaDia tz b (vid v) d = mkMetaCalc (numero_ou_zero (meta_padrao w)) 0 0 0
  /\ (forall vs, calcularMetaDia tz (mkDb (vendedoras b) vs (metas b)) (vid v) d
                 = calcularMetaDia tz b (vid v) d)
  /\ exists x, get_metas tz b h d = MetaDoDia x 0 0 0.
Proof.
  intros Ha Hw Hm.
  pose proof (calcularMetaDia_fallback tz b (vid v) d w Hw Hm) as Hc.
  split; [exact Hc|]. split.
  - intros vs. rewrite Hc.
    apply (calcularMetaDia_fallback tz (mkDb (vendedoras b) vs (metas b)) (vid v) d w);
      [exact Hw | exact Hm].
  - unfold get_metas. rewrite Ha, Hc. cbn [metaMensal vendidoNoMes faltaNoMes]. eauto.
Qed.

Lemma get_metas_fallback_zera_vendido_witness :
  vendas_do_mes 0 db_fallback 2 (inicio_mes 0 d_2024_03_10) d_2024_03_10 = 5000%Q
  /\ get_metas 0 db_fallback (TokenValido 2) d_2024_03_10 = MetaDoDia 800 0 0 0.
Proof.
  split; [vm_compute; reflexivity|].
  destruct (get_metas_fallback_zera_vendido 0 db_fallback (TokenValido 2) vendedora_2
              vendedora_2 d_2024_03_10 eq_refl eq_refl (Qeq_refl 0)) as (Hc & _ & _).
  unfold get_metas. simpl autenticar. cbv iota beta. rewrite Hc. reflexivity.
Defined.

(* ------------------------------------------------------------------ *)
(** ** The [metas] upsert *)

Definition chave (r : meta_row) : Z * data := (meta_vendedora r, data_meta r).

Definition chaves_unicas (rows : list meta_row) : Prop := NoDup (map chave rows).

Definition mesma_chave (r0 r : meta_row) : bool :=
  (meta_vendedora r0 =? meta_vendedora r) && data_eqb (data_meta r0) (data_meta r).

Lemma data_eqb_eq x y : data_eqb x y = true <-> x = y.
Proof.
  destruct x as [a m d], y as [a' m' d']. unfold data_eqb; simpl.
  rewrite !andb_true_iff, !Z.eqb_eq. split.
  - intros [[-> ->] ->]. reflexivity.
  - intros [= -> -> ->]. auto.
Qed.

Lemma mesma_chave_eq r0 r : mesma_chave r0 r = true <-> chave r0 = chave r.
Proof.
  unfold mesma_chave, chave. rewrite andb_true_iff, Z.eqb_eq, data_eqb_eq.
  split; [intros [-> ->]; reflexivity | intros [= -> ->]; auto].
Qed.

Lemma upsert_meta_buscar rows r :
  buscar_meta (upsert_meta rows r) (meta_vendedora r) (data_meta r) = Some (valor_meta r).
Proof.
  unfold buscar_meta. induction rows as [|r0 rs IH]; simpl.
  - now rewrite Z.eqb_refl, (proj2 (data_eqb_eq _ _) eq_refl).
  - destruct ((meta_vendedora r0 =? meta_vendedora r) && data_eqb (data_meta r0) (data_meta r))
      eqn:E; simpl; rewrite E; [reflexivity | exact IH].
Qed.

Lemma upsert_meta_idem rows r :
  upsert_meta (upsert_meta rows r) r = upsert_meta rows r.
Proof.
  induction rows as [|r0 rs IH]; simpl.
  - rewrite Z.eqb_refl, (proj2 (data_eqb_eq _ _) eq_refl). now destruct r.
  - destruct ((meta_vendedora r0 =? meta_vendedora r) && data_eqb (data_meta r0) (data_meta r))
      eqn:E; simpl; rewrite E; [reflexivity | now rewrite IH].
Qed.

Lemma upsert_meta_chaves rows r :
  map chave (upsert_meta rows r) =
  if existsb (fun r0 => mesma_chave r0 r) rows then map chave rows
  else map chave rows ++ [chave r].
Proof.
  induction rows as [|r0 rs IH]; [reflexivity|].
  cbn [upsert_meta existsb map].
  change ((meta_vendedora r0 =? meta_vendedora r) && data_eqb (data_meta r0) (data_meta r))
    with (mesma_chave r0 r).
  destruct (mesma_chave r0 r); cbn [orb]; [reflexivity|].
  cbn [map]. rewrite IH. destruct (existsb _ rs); reflexivity.
Qed.

Lemma upsert_meta_unicas rows r :
  chaves_unicas rows -> chaves_unicas (upsert_meta rows r).
Proof.
  unfold chaves_unicas. rewrite upsert_meta_chaves. intros H.
  destruct (existsb (fun r0 => mesma_chave r0 r) rows) eqn:E; [exact H|].
  apply NoDup_app; [exact H | constructor; [intros []|constructor] |].
  intros k Hk [<-|[]]. apply in_map_iff in Hk as (r0 & Hr0 & Hin).
  assert (Hm : mesma_chave r0 r = true) by (apply mesma_chave_eq; exact Hr0).
  assert (existsb (fun r0 => mesma_chave r0 r) rows = true)
    by (apply existsb_exists; eauto).
  congruence.
Qed.

Lemma upsert_meta_length rows r id d q :
  meta_vendedora r = id -> data_meta r = d ->
  buscar_meta rows id d = Some q -> List.length (upsert_meta rows r) = List.length rows.
Proof.
  intros <- <-. unfold buscar_meta.
  induction rows as [|r0 rs IH]; simpl; [discriminate|].
  destruct ((meta_vendedora r0 =? meta_vendedora r) && data_eqb (data_meta r0) (data_meta r));
    simpl; [reflexivity|].
  intros H. now rewrite (IH H).
Qed.

Lemma post_metas_ok b h v a d :
  autenticar b h = inr v ->
  post_metas b h a d =
    match decimal_10_2 a with
    | None => (Erro 500 "Erro ao salvar meta", b)
    | Some a' =>
        (MetaSalva (mkMeta (vid v) a' d),
         mkDb (vendedoras b) (vendas b) (upsert_meta (metas b) (mkMeta (vid v) a' d)))
    end.
Proof.
  intros Ha. destruct (autenticar_buscar b h v Ha) as [w Hw].
  unfold post_metas, inserir_meta. rewrite Ha.
  destruct (decimal_10_2 a); [rewrite Hw|]; reflexivity.
Qed.

(** C8 (the claim as stated): a negative amount is not refused; both
    [POST /api/metas] routes store -5 as the day's goal. *)
Lemma post_metas_aceita_negativo :
  post_metas db_exemplo (TokenValido 1) (-5) d_2024_03_10
    = (MetaSalva (mkMeta 1 (-500 # 100) d_2024_03_10),
       mkDb [vendedora_1] [venda_1] [mkMeta 1 (-500 # 100) d_2024_03_10])
  /\ post_metas_backend db_exemplo (TokenValido 1) (-5) (Some d_2024_03_10)
    = (MetaSalva (mkMeta 1 (-500 # 100) d_2024_03_10),
       mkDb [vendedora_1] [venda_1] [mkMeta 1 (-500 # 100) d_2024_03_10]).
Proof. vm_compute. split; reflexivity. Qed.

(** C8 (as the code has it): [POST /api/metas] checks no sign; for an
    authenticated seller, an amount that fits DECIMAL(10,2) is stored,
    rounded to 2 decimal places, whatever its sign, and only an amount out
    of the column's range fails (500) leaving the table unchanged. *)
Theorem post_metas_sem_validacao_sinal b h v a d :
  autenticar b h = inr v ->
  post_metas b h a d =
    match decimal_10_2 a with
    | None => (Erro 500 "Erro ao salvar meta", b)
    | Some a' =>
        (MetaSalva (mkMeta (vid v) a' d),
         mkDb (vendedoras b) (vendas b) (upsert_meta (metas b) (mkMeta (vid v) a' d)))
    end.
Proof. apply post_metas_ok. Qed.

Lemma post_metas_sem_validacao_sinal_witness :
  decimal_10_2 (-5) = Some (-500 # 100)
  /\ post_metas db_exemplo (TokenValido 1) (-5) d_2024_03_10
     = (MetaSalva (mkMeta 1 (-500 # 100) d_2024_03_10),
        mkDb [vendedora_1] [venda_1] [mkMeta 1 (-500 # 100) d_2024_03_10])
  /\ decimal_10_2 (10 ^ 8) = None
  /\ post_metas db_exemplo (TokenValido 1) (10 ^ 8) d_2024_03_10
     = (Erro 500 "Erro ao salvar meta", db_exemplo).
Proof.
  split; [reflexivity|]. split.
  - rewrite (post_metas_sem_validacao_sinal db_exemplo (TokenValido 1) vendedora_1
               (-5) d_2024_03_10 eq_refl). reflexivity.
  - split; [reflexivity|].
    rewrite (post_metas_sem_validacao_sinal db_exemplo (TokenValido 1) vendedora_1
               (10 ^ 8) d_2024_03_10 eq_refl). reflexivity.
Defined.

(** C9 (the claim as stated): an amount with more than two decimal places
    is not stored as given: 1.234 is stored as 1.23. *)
Lemma post_metas_arredonda :
  let b1 := snd (post_metas db_exemplo (TokenValido 1) (1234 # 1000) d_2024_03_10) in
  buscar_meta (metas b1) 1 d_2024_03_10 = Some (123 # 100)
  /\ ~ (123 # 100 == 1234 # 1000)%Q.
Proof. vm_compute. split; [reflexivity | discriminate]. Qed.

(** C9 (as the code has it): for an authenticated seller and an amount
    that fits DECIMAL(10,2), [POST /api/metas] stores the amount rounded
    to 2 decimal places under (seller, date); repeating the call answers
    the same and leaves the database as it is; the (seller, date) keys
    stay unique, and a write to an existing key replaces its value without
    adding a row. *)
Theorem post_metas_upsert_idempotente b h v a a' d :
  autenticar b h = inr v ->
  decimal_10_2 a = Some a' ->
  chaves_unicas (metas b) ->
  exists b1,
    post_metas b h a d = (MetaSalva (mkMeta (vid v) a' d), b1)
    /\ post_metas b1 h a d = (MetaSalva (mkMeta (vid v) a' d), b1)
    /\ buscar_meta (metas b1) (vid v) d = Some a'
    /\ chaves_unicas (metas b1)
    /\ ((exists q, buscar_meta (metas b) (vid v) d = Some q) ->
        List.length (metas b1) = List.length (metas b)).
Proof.
  intros Ha Hd Hu.
  set (b1 := mkDb (vendedoras b) (vendas b) (upsert_meta (metas b) (mkMeta (vid v) a' d))).
  assert (Ha1 : autenticar b1 h = inr v) by (rewrite <- Ha; reflexivity).
  exists b1. split; [rewrite (post_metas_ok b h v a d Ha), Hd; reflexivity|].
  split.
  - rewrite (post_metas_ok b1 h v a d Ha1), Hd. unfold b1. cbn [metas vendas vendedoras].
    now rewrite upsert_meta_idem.
  - split; [apply (upsert_meta_buscar (metas b) (mkMeta (vid v) a' d))|].
    split; [apply upsert_meta_unicas; exact Hu|].
    intros [q Hq]. apply (upsert_meta_length _ _ (vid v) d q); auto.
Qed.

Lemma post_metas_upsert_idempotente_witness :
  exists b1,
    post_metas db_com_override (TokenValido 1) 600 d_2024_03_10
      = (MetaSalva (mkMeta 1 (60000 # 100) d_2024_03_10), b1)
    /\ post_metas b1 (TokenValido 1) 600 d_2024_03_10
      = (MetaSalva (mkMeta 1 (60000 # 100) d_2024_03_10), b1)
    /\ buscar_meta (metas b1) 1 d_2024_03_10 = Some (60000 # 100)
    /\ chaves_unicas (metas b1)
    /\ ((exists q, buscar_meta (metas db_com_override) 1 d_2024_03_10 = Some q) ->
        List.length (metas b1) = List.length (metas db_com_override)).
Proof.
  refine (post_metas_upsert_idempotente db_com_override (TokenValido 1) vendedora_1
            600 (60000 # 100) d_2024_03_10 eq_refl eq_refl _).
  unfold chaves_unicas. simpl. repeat constructor. intros [].
Defined.

(* ------------------------------------------------------------------ *)
(** ** [contarDiasUteis] *)

Lemma to_nat_nao_positivo z : z <= 0 -> Z.to_nat z = O.
Proof. destruct z; simpl; lia. Qed.

Section ContarDiasUteis.
Variable tz : Z.

(** With the process time zone at UTC or east of it, the local day of a
    UTC midnight is that same day. *)
Hypothesis tz_leste : 0 <= tz < 1440.

Lemma getDay_meia_noite_utc n : getDay tz (n * minutos_dia) = dia_semana_de n.
Proof.
  unfold getDay, dia_local, minutos_dia. f_equal.
  rewrite Z.div_add_l by lia. rewrite (Z.div_small tz 1440) by lia. lia.
Qed.

Lemma contar_loop_utc k : forall n m count,
  Z.of_nat k = m - n + 1 ->
  contar_loop tz k (n * minutos_dia) (m * minutos_dia) count
  = count + dias_nao_domingo k n.
Proof.
  induction k as [|k IH]; intros n m count Hk; simpl; [lia|].
  replace (n * minutos_dia <=? m * minutos_dia) with true
    by (symmetry; apply Z.leb_le; unfold minutos_dia; lia).
  rewrite getDay_meia_noite_utc.
  replace (proximo_dia (n * minutos_dia)) with ((n + 1) * minutos_dia)
    by (unfold proximo_dia, minutos_dia; lia).
  rewrite (IH (n + 1) m) by lia.
  destruct (negb (dia_semana_de n =? 0)); lia.
Qed.

Lemma contarDiasUteis_fuso_leste de ate :
  contarDiasUteis tz de ate = contagem_esperada de ate.
Proof.
  unfold contarDiasUteis, contagem_esperada, new_Date_iso.
  set (n := dia_numero de). set (m := dia_numero ate).
  replace ((m * minutos_dia - n * minutos_dia) / minutos_dia + 1) with (m - n + 1)
    by (unfold minutos_dia; rewrite <- Z.mul_sub_distr_r, Z.div_mul by lia; lia).
  destruct (Z_le_gt_dec (m - n + 1) 0) as [Hle|Hgt].
  - rewrite (to_nat_nao_positivo _ Hle). reflexivity.
  - rewrite (contar_loop_utc (Z.to_nat (m - n + 1)) n m 0) by (rewrite Z2Nat.id; lia).
    lia.
Qed.
End ContarDiasUteis.

(** For any time zone, an empty interval counts 0. *)
Lemma contarDiasUteis_intervalo_vazio tz de ate :
  dia_numero ate < dia_numero de -> contarDiasUteis tz de ate = 0.
Proof.
  intros H. unfold contarDiasUteis, new_Date_iso, minutos_dia.
  replace (Z.to_nat _) with O; [reflexivity|].
  symmetry. apply to_nat_nao_positivo.
  rewrite <- Z.mul_sub_distr_r, Z.div_mul by lia. lia.
Qed.

(** C6: in a time zone west of UTC, [contarDiasUteis] reads the week day
    of each date one day early: at UTC-3 the single Monday 2024-03-11
    counts 0 and the single Sunday 2024-03-10 counts 1. *)
Theorem contarDiasUteis_fuso_oeste_desloca :
  dia_semana_de (dia_numero d_2024_03_11) = 1
  /\ contagem_esperada d_2024_03_11 d_2024_03_11 = 1
  /\ contarDiasUteis (-180) d_2024_03_11 d_2024_03_11 = 0
  /\ dia_semana_de (dia_numero d_2024_03_10) = 0
  /\ contarDiasUteis (-180) d_2024_03_10 d_2024_03_10 = 1.
Proof. vm_compute. repeat split. Qed.

(** On the pacing path, with a positive remainder and a positive count of
    selling days, [metaDia] is exactly the remainder divided by that count. *)
Lemma calcularMetaDia_quociente tz b id d v :
  buscar_vendedora b id = Some v ->
  ~ (numero_ou_zero (meta_mensal v) == 0)%Q ->
  let c := calcularMetaDia tz b id d in
  (0 < faltaNoMes c)%Q ->
  0 < dias_uteis_restantes tz d ->
  metaDia c = (faltaNoMes c / inject_Z (dias_uteis_restantes tz d))%Q.
Proof.
  intros Hv Hm. cbv zeta. rewrite (calcularMetaDia_pacing tz b id d v Hv Hm).
  cbn [metaDia faltaNoMes]. intros Hf Hn.
  destruct (Qeq_bool _ 0) eqn:E.
  - apply Qeq_bool_iff in E. rewrite E in Hf. discriminate.
  - apply Z.ltb_lt in Hn. now rewrite Hn.
Qed.

(** C2: the scenario of the spec (goal 30000, 10000 sold, 2024-03-10)
    gives 20000 / 18 with the process at UTC, but 20000 / 19 at UTC-3,
    where [contarDiasUteis] counts 19 selling days. *)
Theorem metaDia_cenario_depende_fuso :
  metaDia (calcularMetaDia 0 db_exemplo 1 d_2024_03_10) = (20000 / inject_Z 18)%Q
  /\ faltaNoMes (calcularMetaDia (-180) db_exemplo 1 d_2024_03_10) = 20000%Q
  /\ dias_uteis_restantes (-180) d_2024_03_10 = 19
  /\ metaDia (calcularMetaDia (-180) db_exemplo 1 d_2024_03_10) = (20000 / inject_Z 19)%Q
  /\ ~ (20000 / inject_Z 19 == 20000 / inject_Z 18)%Q.
Proof. vm_compute. repeat split. discriminate. Qed.

(* ------------------------------------------------------------------ *)
(** ** The calendar round trip [civil_from_days] / [days_from_civil] *)

(** [todos k f n] checks [f] on [n, n + k). *)
Fixpoint todos (k : nat) (f : Z -> bool) (n : Z) : bool :=
  match k with
  | O => true
  | S k' => if f n then todos k' f (n + 1) else false
  end.

Lemma todos_ok k f : forall n, todos k f n = true ->
  forall m, n <= m < n + Z.of_nat k -> f m = true.
Proof.
  induction k as [|k IH]; intros n H m Hm; simpl in *; [lia|].
  destruct (f n) eqn:E; [|discriminate].
  destruct (Z.eq_dec m n) as [->|]; [exact E|]. apply (IH (n + 1)); [exact H|lia].
Qed.

Lemma ano_da_era_quase doe : 0 <= doe <= 146095 -> doe - doe / 1460 <= 145995.
Proof.
  intros H.
  pose proof (Z.div_mod doe 1460 ltac:(lia)). pose proof (Z.mod_pos_bound doe 1460 ltac:(lia)).
  set (q := doe / 1460) in *. set (r := doe mod 1460) in *.
  destruct (Z_le_gt_dec q 99); lia.
Qed.

Lemma ano_da_era_limites doe : 0 <= doe < 146097 ->
  0 <= (doe - doe / 1460 + doe / 36524 - doe / 146096) / 365 < 400.
Proof.
  intros H.
  destruct (Z.eq_dec doe 146096) as [->|Hne]; [vm_compute; split; congruence|].
  assert (doe / 146096 = 0) as -> by (apply Z.div_small; lia).
  assert (0 <= doe / 36524 < 4)
    by (split; [apply Z.div_pos; lia | apply Z.div_lt_upper_bound; lia]).
  pose proof (ano_da_era_quase doe ltac:(lia)).
  pose proof (Z.div_mod doe 1460 ltac:(lia)). pose proof (Z.mod_pos_bound doe 1460 ltac:(lia)).
  split; [apply Z.div_pos | apply Z.div_lt_upper_bound]; lia.
Qed.

Definition dia_do_ano_ok (doe : Z) : bool :=
  let yoe := (doe - doe / 1460 + doe / 36524 - doe / 146096) / 365 in
  let doy := doe - (365 * yoe + yoe / 4 - yoe / 100) in
  (0 <=? doy) && (doy <=? 365).

(** Checked on each of the 146097 days of a 400-year era. *)
Lemma dia_do_ano_limites doe : 0 <= doe < 146097 ->
  let yoe := (doe - doe / 1460 + doe / 36524 - doe / 146096) / 365 in
  0 <= doe - (365 * yoe + yoe / 4 - yoe / 100) <= 365.
Proof.
  intros H. cbv zeta.
  assert (Hc : todos (Z.to_nat 146097) dia_do_ano_ok 0 = true) by (vm_compute; reflexivity).
  pose proof (todos_ok _ _ _ Hc doe ltac:(rewrite Z2Nat.id; lia)) as Hd.
  unfold dia_do_ano_ok in Hd. apply andb_prop in Hd as [H1 H2].
  apply Z.leb_le in H1, H2. lia.
Qed.

(** Reading back the date of a day number gives that day number: the date
    string of [toISOString().slice(0, 10)], parsed again, is the same day. *)
Lemma dia_numero_civil n : dia_numero (civil_from_days n) = n.
Proof.
  unfold dia_numero, civil_from_days, days_from_civil. cbn [ano mes dia].
  set (z := n + 719468).
  set (era := z / 146097).
  set (doe := z - era * 146097).
  assert (Hdoe : 0 <= doe < 146097).
  { pose proof (Z.div_mod z 146097 ltac:(lia)). pose proof (Z.mod_pos_bound z 146097 ltac:(lia)).
    unfold doe, era. lia. }
  pose proof (ano_da_era_limites doe Hdoe) as Hyoe.
  pose proof (dia_do_ano_limites doe Hdoe) as Hdoy. cbv zeta in Hdoy.
  set (yoe := (doe - doe / 1460 + doe / 36524 - doe / 146096) / 365) in *.
  set (doy := doe - (365 * yoe + yoe / 4 - yoe / 100)) in *.
  set (mp := (5 * doy + 2) / 153).
  assert (Hmp : 0 <= mp <= 11).
  { unfold mp. split; [apply Z.div_pos; lia|].
    apply Z.lt_succ_r, Z.div_lt_upper_bound; lia. }
  set (y := yoe + era * 400).
  assert (Hera : y / 400 = era).
  { unfold y. rewrite Z.div_add by lia. rewrite Z.div_small by lia. lia. }
  destruct (mp <? 10) eqn:E.
  - apply Z.ltb_lt in E.
    replace (mp + 3 <=? 2) with false by (symmetry; apply Z.leb_gt; lia).
    replace ((mp + 3 + 9) mod 12) with mp
      by (replace (mp + 3 + 9) with (mp + 1 * 12) by lia;
          rewrite Z.mod_add, Z.mod_small; lia).
    rewrite Hera. replace (y - era * 400) with yoe by (unfold y; lia).
    unfold doy at 1 in Hdoy. lia.
  - apply Z.ltb_ge in E.
    replace (mp - 9 <=? 2) with true by (symmetry; apply Z.leb_le; lia).
    replace ((mp - 9 + 9) mod 12) with mp by (rewrite Z.mod_small; lia).
    replace (y + 1 - 1) with y by lia.
    rewrite Hera. replace (y - era * 400) with yoe by (unfold y; lia).
    unfold doy at 1 in Hdoy. lia.
Qed.

(* ------------------------------------------------------------------ *)
(** ** Which days [calcularMetaDia] counts, by time zone *)

(** The local day number of [fimMes = new Date(ano, mes + 1, 0)] in
    [calcularMetaDia]: the last day of the month of the date, except for
    the years 0 to 99, which the constructor reads as 1900 to 1999. *)
Definition ultimo_dia_mes (d : data) : Z := fim_mes 0 d / minutos_dia.

Lemma dia_local_iso tz d : dia_local tz (new_Date_local_iso tz d) = dia_numero d.
Proof.
  unfold dia_local, new_Date_local_iso, minutos_dia.
  replace (dia_numero d * 1440 - tz + tz) with (dia_numero d * 1440) by lia.
  apply Z.div_mul; lia.
Qed.

Lemma fim_mes_fuso tz d : fim_mes tz d = ultimo_dia_mes d * minutos_dia - tz.
Proof.
  unfold ultimo_dia_mes, fim_mes, getFullYear, getMonth.
  rewrite !dia_local_iso. unfold new_Date_campos, minutos_dia.
  rewrite Z.sub_0_r, Z.div_mul by lia. reflexivity.
Qed.

Lemma div_dia_leste L tz : 0 < tz < 1440 -> (L * minutos_dia - tz) / minutos_dia = L - 1.
Proof.
  intros H. unfold minutos_dia.
  replace (L * 1440 - tz) with ((1440 - tz) + (L - 1) * 1440) by lia.
  rewrite Z.div_add, Z.div_small by lia. lia.
Qed.

Lemma div_dia_oeste L tz : -1440 < tz <= 0 -> (L * minutos_dia - tz) / minutos_dia = L.
Proof.
  intros H. unfold minutos_dia.
  replace (L * 1440 - tz) with (- tz + L * 1440) by lia.
  rewrite Z.div_add, Z.div_small by lia. lia.
Qed.

Section ContarDiasUteisOeste.
Variable tz : Z.
Hypothesis tz_oeste : -1440 < tz < 0.

Lemma getDay_meia_noite_utc_oeste n : getDay tz (n * minutos_dia) = dia_semana_de (n - 1).
Proof.
  unfold getDay, dia_local, minutos_dia. f_equal.
  replace (n * 1440 + tz) with ((1440 + tz) + (n - 1) * 1440) by lia.
  rewrite Z.div_add, Z.div_small by lia. lia.
Qed.

Lemma contar_loop_oeste k : forall n m count,
  Z.of_nat k = m - n + 1 ->
  contar_loop tz k (n * minutos_dia) (m * minutos_dia) count
  = count + dias_nao_domingo k (n - 1).
Proof.
  induction k as [|k IH]; intros n m count Hk; simpl; [lia|].
  replace (n * minutos_dia <=? m * minutos_dia) with true
    by (symmetry; apply Z.leb_le; unfold minutos_dia; lia).
  rewrite getDay_meia_noite_utc_oeste.
  replace (proximo_dia (n * minutos_dia)) with ((n + 1) * minutos_dia)
    by (unfold proximo_dia, minutos_dia; lia).
  rewrite (IH (n + 1) m) by lia.
  replace (n + 1 - 1) with (n - 1 + 1) by lia.
  destruct (negb (dia_semana_de (n - 1) =? 0)); lia.
Qed.

(** West of UTC, [contarDiasUteis(de, ate)] counts the non-Sundays of the
    interval one day earlier, [de - 1, ate - 1]. *)
Lemma contarDiasUteis_oeste_contagem de ate :
  contarDiasUteis tz de ate
  = dias_nao_domingo (Z.to_nat (dia_numero ate - dia_numero de + 1)) (dia_numero de - 1).
Proof.
  unfold contarDiasUteis, new_Date_iso.
  set (n := dia_numero de). set (m := dia_numero ate).
  replace ((m * minutos_dia - n * minutos_dia) / minutos_dia + 1) with (m - n + 1)
    by (unfold minutos_dia; rewrite <- Z.mul_sub_distr_r, Z.div_mul by lia; lia).
  destruct (Z_le_gt_dec (m - n + 1) 0) as [Hle|Hgt].
  - rewrite (to_nat_nao_positivo _ Hle). reflexivity.
  - rewrite (contar_loop_oeste (Z.to_nat (m - n + 1)) n m 0) by (rewrite Z2Nat.id; lia).
    lia.
Qed.
End ContarDiasUteisOeste.

(** [diasUteisRestantes] of [calcularMetaDia], from the date [d] (day
    number n) to the local day of [fimMes] (day number L, the last day of
    the month outside the years 0 to 99): at UTC it counts
    the non-Sundays of [n, L]; east of UTC [fimMes.toISOString()] gives the
    day before the last, so it counts [n, L - 1]; west of UTC it counts the
    non-Sundays of the shifted interval [n - 1, L - 1]. *)
Theorem dias_uteis_restantes_por_fuso tz d :
  let n := dia_numero d in
  let L := ultimo_dia_mes d in
  (tz = 0 -> dias_uteis_restantes tz d = dias_nao_domingo (Z.to_nat (L - n + 1)) n)
  /\ (0 < tz < 1440 -> dias_uteis_restantes tz d = dias_nao_domingo (Z.to_nat (L - n)) n)
  /\ (-1440 < tz < 0 ->
      dias_uteis_restantes tz d = dias_nao_domingo (Z.to_nat (L - n + 1)) (n - 1)).
Proof.
  cbv zeta. unfold dias_uteis_restantes, toISODate. rewrite fim_mes_fuso.
  split; [|split]; intros Htz.
  - subst tz. rewrite div_dia_oeste by lia.
    rewrite contarDiasUteis_fuso_leste by lia. unfold contagem_esperada.
    now rewrite dia_numero_civil.
  - rewrite div_dia_leste by lia.
    rewrite contarDiasUteis_fuso_leste by lia. unfold contagem_esperada.
    rewrite dia_numero_civil. do 2 f_equal. lia.
  - rewrite div_dia_oeste by lia.
    rewrite contarDiasUteis_oeste_contagem by lia.
    now rewrite dia_numero_civil.
Qed.

(* ------------------------------------------------------------------ *)
(** ** More properties of [calcularMetaDia], the metas routes and [diasUteisRestantes] *)


Lemma quociente_limites (F : Q) (n : Z) :
  (0 <= F)%Q -> 0 < n -> (0 <= F / inject_Z n <= F)%Q.
Proof.
  intros HF Hn. assert (Hq : (0 < inject_Z n)%Q) by (change 0%Q with (inject_Z 0); rewrite <- Zlt_Qlt; exact Hn).
  assert (H1 : (1 <= inject_Z n)%Q) by (change 1%Q with (inject_Z 1); rewrite <- Zle_Qle; lia).
  split.
  - apply Qle_shift_div_l; [exact Hq|]. rewrite Qmult_0_l. exact HF.
  - apply Qle_shift_div_r; [exact Hq|].
    rewrite <- (Qmult_1_r F) at 1. rewrite !(Qmult_comm F). apply Qmult_le_compat_r; [exact H1 | exact HF].
Qed.

(** The pacing value, up to [==]: [F / n] when [n > 0], else 0. *)
Lemma metaDia_pacing_eq tz b id d v :
  buscar_vendedora b id = Some v ->
  ~ (numero_ou_zero (meta_mensal v) == 0)%Q ->
  let c := calcularMetaDia tz b id d in
  let n := dias_uteis_restantes tz d in
  (metaDia c == if 0 <? n then faltaNoMes c / inject_Z n else 0)%Q.
Proof.
  intros Hv Hm. cbv zeta. rewrite (calcularMetaDia_pacing tz b id d v Hv Hm).
  cbn [metaDia faltaNoMes].
  set (F := if negb (Qle_bool 0 _) then 0%Q else _).
  destruct (Qeq_bool F 0) eqn:E; [|reflexivity].
  apply Qeq_bool_eq in E.
  destruct (0 <? dias_uteis_restantes tz d); [|reflexivity].
  unfold Qdiv. rewrite E, Qmult_0_l. reflexivity.
Qed.

Lemma Qeq_bool_falso x y : Qeq_bool x y = false -> ~ (x == y)%Q.
Proof. intros E H. apply Qeq_bool_iff in H. congruence. Qed.

(** When every seller's [meta_padrao] is non-negative, the [metaDia] of
    [calcularMetaDia] is never negative, for any seller id, date and zone. *)
Theorem calcularMetaDia_nao_negativa tz b id d :
  (forall v, In v (vendedoras b) -> (0 <= numero_ou_zero (meta_padrao v))%Q) ->
  (0 <= metaDia (calcularMetaDia tz b id d))%Q.
Proof.
  intros Hp. destruct (buscar_vendedora b id) as [v|] eqn:Hv.
  - destruct (Qeq_bool (numero_ou_zero (meta_mensal v)) 0) eqn:Em.
    + apply Qeq_bool_iff in Em. rewrite (calcularMetaDia_fallback tz b id d v Hv Em).
      apply Hp. unfold buscar_vendedora in Hv. apply find_some in Hv. apply Hv.
    + apply Qeq_bool_falso in Em.
      rewrite (metaDia_pacing_eq tz b id d v Hv Em).
      destruct (0 <? dias_uteis_restantes tz d) eqn:En; [|apply Qle_refl].
      apply quociente_limites; [apply (falta_max tz b id d v Hv Em) | apply Z.ltb_lt; exact En].
  - rewrite (calcularMetaDia_sem_vendedora tz b id d Hv). apply Qle_refl.
Qed.

(** On the pacing path the daily goal lies between 0 and what is still
    missing in the month ([faltaNoMes]). *)
Theorem calcularMetaDia_ate_falta tz b id d v :
  buscar_vendedora b id = Some v ->
  ~ (numero_ou_zero (meta_mensal v) == 0)%Q ->
  let c := calcularMetaDia tz b id d in
  (0 <= metaDia c <= faltaNoMes c)%Q.
Proof.
  intros Hv Hm. cbv zeta.
  rewrite (metaDia_pacing_eq tz b id d v Hv Hm).
  pose proof (proj2 (falta_max tz b id d v Hv Hm)) as HF.
  destruct (0 <? dias_uteis_restantes tz d) eqn:En.
  - apply quociente_limites; [exact HF | apply Z.ltb_lt; exact En].
  - split; [apply Qle_refl | exact HF].
Qed.

(** With the same sellers table, selling more in the month never raises
    the daily goal. *)
Theorem calcularMetaDia_monotona tz b1 b2 id d :
  vendedoras b1 = vendedoras b2 ->
  (vendidoNoMes (calcularMetaDia tz b1 id d) <= vendidoNoMes (calcularMetaDia tz b2 id d))%Q ->
  (metaDia (calcularMetaDia tz b2 id d) <= metaDia (calcularMetaDia tz b1 id d))%Q.
Proof.
  intros Hs HR.
  assert (Hb : buscar_vendedora b2 id = buscar_vendedora b1 id)
    by (unfold buscar_vendedora; now rewrite Hs).
  destruct (buscar_vendedora b1 id) as [v|] eqn:Hv1.
  - destruct (Qeq_bool (numero_ou_zero (meta_mensal v)) 0) eqn:Em.
    + apply Qeq_bool_iff in Em.
      rewrite (calcularMetaDia_fallback tz b1 id d v Hv1 Em),
              (calcularMetaDia_fallback tz b2 id d v Hb Em). apply Qle_refl.
    + apply Qeq_bool_falso in Em.
      rewrite (metaDia_pacing_eq tz b1 id d v Hv1 Em), (metaDia_pacing_eq tz b2 id d v Hb Em).
      destruct (falta_max tz b1 id d v Hv1 Em) as [HF1 _].
      destruct (falta_max tz b2 id d v Hb Em) as [HF2 HF2p].
      assert (HM : metaMensal (calcularMetaDia tz b1 id d) = metaMensal (calcularMetaDia tz b2 id d)).
      { rewrite (calcularMetaDia_pacing tz b1 id d v Hv1 Em),
                (calcularMetaDia_pacing tz b2 id d v Hb Em). reflexivity. }
      assert (HFF : (faltaNoMes (calcularMetaDia tz b2 id d)
                     <= faltaNoMes (calcularMetaDia tz b1 id d))%Q).
      { rewrite HF1, HF2, HM. apply Q.max_le_compat_r.
        apply Qplus_le_r. apply Qopp_le_compat. exact HR. }
      destruct (0 <? dias_uteis_restantes tz d) eqn:En; [|apply Qle_refl].
      apply Z.ltb_lt in En.
      assert (Hq : (0 < inject_Z (dias_uteis_restantes tz d))%Q)
        by (change 0%Q with (inject_Z 0); rewrite <- Zlt_Qlt; exact En).
      unfold Qdiv. apply Qmult_le_compat_r; [exact HFF|].
      apply Qlt_le_weak, Qinv_lt_0_compat. exact Hq.
  - rewrite (calcularMetaDia_sem_vendedora tz b1 id d Hv1),
            (calcularMetaDia_sem_vendedora tz b2 id d Hb). apply Qle_refl.
Qed.

Lemma inicio_mes_fuso tz d : inicio_mes tz d + tz = inicio_mes 0 d.
Proof.
  unfold inicio_mes, getFullYear, getMonth. rewrite !dia_local_iso.
  unfold new_Date_campos. lia.
Qed.

Lemma calcularMetaDia_so_vendas_do_mes tz b1 b2 id d :
  vendedoras b1 = vendedoras b2 ->
  vendas_do_mes tz b1 id (inicio_mes tz d) d = vendas_do_mes tz b2 id (inicio_mes tz d) d ->
  calcularMetaDia tz b1 id d = calcularMetaDia tz b2 id d.
Proof.
  intros Hs Hr. unfold calcularMetaDia. cbv zeta. unfold buscar_vendedora.
  rewrite Hs, Hr. reflexivity.
Qed.

(** A sale of another seller, or dated before the first day of the month
    or after the end of the requested day, changes nothing in the result. *)
Theorem calcularMetaDia_ignora_venda_fora tz b id d x :
  (venda_vendedora x <> id \/ data_venda x < inicio_mes 0 d
   \/ (dia_numero d + 1) * minutos_dia <= data_venda x) ->
  calcularMetaDia tz (mkDb (vendedoras b) (x :: vendas b) (metas b)) id d
  = calcularMetaDia tz b id d.
Proof.
  intros Hx. apply calcularMetaDia_so_vendas_do_mes; [reflexivity|].
  unfold vendas_do_mes. cbn [vendas filter]. rewrite <- (inicio_mes_fuso tz d) in Hx.
  replace ((venda_vendedora x =? id) && (inicio_mes tz d + tz <=? data_venda x)
           && (data_venda x <? (dia_numero d + 1) * minutos_dia)) with false; [reflexivity|].
  symmetry. destruct Hx as [H|[H|H]].
  - apply Z.eqb_neq in H. now rewrite H.
  - replace (inicio_mes tz d + tz <=? data_venda x) with false
      by (symmetry; apply Z.leb_gt; exact H). now rewrite andb_false_r.
  - replace (data_venda x <? (dia_numero d + 1) * minutos_dia) with false
      by (symmetry; apply Z.ltb_ge; exact H). now rewrite andb_false_r.
Qed.

Lemma autenticar_mesmas_vendedoras b1 b2 h :
  vendedoras b1 = vendedoras b2 -> autenticar b1 h = autenticar b2 h.
Proof. intros Hs. unfold autenticar. now rewrite Hs. Qed.

(** After a successful [POST /api/metas] for date [d], [GET /api/metas/:d]
    returns the stored (rounded) value as [metaDia]; the other fields are
    those of [calcularMetaDia] on the database before the write. *)
Theorem post_metas_get_metas tz b h v a a' d :
  autenticar b h = inr v ->
  decimal_10_2 a = Some a' ->
  let b1 := snd (post_metas b h a d) in
  let c := calcularMetaDia tz b (vid v) d in
  get_metas tz b1 h d = MetaDoDia a' (metaMensal c) (vendidoNoMes c) (faltaNoMes c).
Proof.
  intros Ha Hd. cbv zeta. rewrite (post_metas_ok b h v a d Ha), Hd. cbn [snd].
  set (b1 := mkDb (vendedoras b) (vendas b) (upsert_meta (metas b) (mkMeta (vid v) a' d))).
  unfold get_metas. rewrite (autenticar_mesmas_vendedoras b1 b h eq_refl), Ha.
  rewrite (calcularMetaDia_so_vendas_do_mes tz b1 b (vid v) d eq_refl eq_refl).
  unfold b1 at 1. cbn [metas].
  pose proof (upsert_meta_buscar (metas b) (mkMeta (vid v) a' d)) as Hu.
  cbn [meta_vendedora data_meta valor_meta] in Hu. rewrite Hu. reflexivity.
Qed.

Lemma upsert_meta_outras rows r id d :
  (id, d) <> chave r ->
  buscar_meta (upsert_meta rows r) id d = buscar_meta rows id d.
Proof.
  intros Hne. unfold buscar_meta.
  induction rows as [|r0 rs IH]; cbn [upsert_meta].
  - cbn [find]. destruct ((meta_vendedora r =? id) && data_eqb (data_meta r) d) eqn:E;
      [|reflexivity].
    exfalso. apply andb_prop in E as [E1 E2]. apply Z.eqb_eq in E1. apply data_eqb_eq in E2.
    apply Hne. unfold chave. now rewrite E1, E2.
  - change ((meta_vendedora r0 =? meta_vendedora r) && data_eqb (data_meta r0) (data_meta r))
      with (mesma_chave r0 r).
    destruct (mesma_chave r0 r) eqn:Ek; cbn [find meta_vendedora data_meta].
    + apply mesma_chave_eq in Ek. unfold chave in Ek. injection Ek as E1 E2.
      rewrite E1, E2.
      destruct ((meta_vendedora r =? id) && data_eqb (data_meta r) d) eqn:Ep.
      * exfalso. apply andb_prop in Ep as [P1 P2]. apply Z.eqb_eq in P1.
        apply data_eqb_eq in P2. apply Hne. unfold chave. now rewrite P1, P2.
      * reflexivity.
    + destruct ((meta_vendedora r0 =? id) && data_eqb (data_meta r0) d); [reflexivity | exact IH].
Qed.

(** [POST /api/metas] only touches the row of the authenticated seller and
    the given date: every other (seller, date) lookup is unchanged. *)
Theorem post_metas_preserva_outras b h v a d id' d' :
  autenticar b h = inr v ->
  (id', d') <> (vid v, d) ->
  buscar_meta (metas (snd (post_metas b h a d))) id' d' = buscar_meta (metas b) id' d'.
Proof.
  intros Ha Hne. rewrite (post_metas_ok b h v a d Ha).
  destruct (decimal_10_2 a) as [a'|]; [|reflexivity]. cbn [snd metas].
  apply upsert_meta_outras. exact Hne.
Qed.

Lemma calcularMetaDinamica_max tz agora M V :
  0 < diasUteisRestantes tz agora ->
  (calcularMetaDinamica tz agora M V
   == Qmax ((M - V) / inject_Z (diasUteisRestantes tz agora)) 0)%Q.
Proof.
  intros Hn. unfold calcularMetaDinamica.
  replace (diasUteisRestantes tz agora <=? 0) with false by (symmetry; apply Z.leb_gt; exact Hn).
  set (q := ((M - V) / inject_Z (diasUteisRestantes tz agora))%Q).
  destruct (Qle_bool 0 q) eqn:E.
  - apply Qle_bool_iff in E. rewrite Q.max_l by exact E. reflexivity.
  - assert (Hx : (q <= 0)%Q).
    { apply Qlt_le_weak, Qnot_le_lt. intro H. apply Qle_bool_iff in H. congruence. }
    rewrite Q.max_r by exact Hx. reflexivity.
Qed.

(** When some selling days remain, [calcularMetaDinamica] is non-negative
    and does not increase with [vendidoAteHoje]. *)
Theorem calcularMetaDinamica_nao_negativa_monotona tz agora M V1 V2 :
  0 < diasUteisRestantes tz agora ->
  (0 <= calcularMetaDinamica tz agora M V1)%Q
  /\ ((V1 <= V2)%Q ->
      (calcularMetaDinamica tz agora M V2 <= calcularMetaDinamica tz agora M V1)%Q).
Proof.
  intros Hn. rewrite !(calcularMetaDinamica_max tz agora M _ Hn). split.
  - apply Q.le_max_r.
  - intros HV. apply Q.max_le_compat_r. unfold Qdiv. apply Qmult_le_compat_r.
    + apply Qplus_le_r. apply Qopp_le_compat. exact HV.
    + apply Qlt_le_weak, Qinv_lt_0_compat.
      change 0%Q with (inject_Z 0). rewrite <- Zlt_Qlt. exact Hn.
Qed.

Lemma dia_local_campos tz a m d :
  dia_local tz (new_Date_campos tz a m d) = dia_local 0 (new_Date_campos 0 a m d).
Proof. unfold dia_local, new_Date_campos. f_equal. lia. Qed.

Lemma dias_loop_fuso tz fuel : forall a m d u,
  dias_loop tz fuel a m d u = dias_loop 0 fuel a m d u.
Proof.
  induction fuel as [|f IH]; intros a m d u; simpl; [reflexivity|].
  unfold getDay. rewrite dia_local_campos, IH. reflexivity.
Qed.

(** [diasUteisRestantes] depends only on the local wall-clock time
    [agora + tz]: unlike [contarDiasUteis], it reads every date in local
    time, so the time zone does not shift its week days. *)
Theorem diasUteisRestantes_hora_local tz agora :
  diasUteisRestantes tz agora = diasUteisRestantes 0 (agora + tz).
Proof.
  unfold diasUteisRestantes, getFullYear, getMonth, getDate.
  rewrite dias_loop_fuso, dia_local_campos.
  replace (dia_local tz agora) with (dia_local 0 (agora + tz))
    by (unfold dia_local; f_equal; lia).
  reflexivity.
Qed.

(** [contarDiasUteis(de, ate)] by time zone: at UTC or east of it, it
    counts the non-Sundays of [de, ate]; west of it, the non-Sundays of the
    interval one day earlier, [de - 1, ate - 1]. *)
Theorem contarDiasUteis_por_fuso tz de ate :
  (0 <= tz < 1440 -> contarDiasUteis tz de ate = contagem_esperada de ate)
  /\ (-1440 < tz < 0 ->
      contarDiasUteis tz de ate
      = dias_nao_domingo (Z.to_nat (dia_numero ate - dia_numero de + 1)) (dia_numero de - 1)).
Proof.
  split; intros Htz.
  - apply contarDiasUteis_fuso_leste. exact Htz.
  - apply contarDiasUteis_oeste_contagem. exact Htz.
Qed.

(* ------------------------------------------------------------------ *)
(** ** Instances *)

Definition d_2024_04_10 := mkData 2024 4 10.
Definition venda_abril := mkVenda 1 999%Q (dia_numero (mkData 2024 4 2) * minutos_dia + 600).
Definition venda_marco := mkVenda 1 2500%Q (dia_numero (mkData 2024 3 8) * minutos_dia + 600).
Definition db_mais_vendas := mkDb [vendedora_1] [venda_marco; venda_1] [].
Definition agora_2024_03_11 := dia_numero d_2024_03_11 * minutos_dia + 600.

Lemma contarDiasUteis_por_fuso_witness :
  (0 <= 60 < 1440 /\ contarDiasUteis 60 d_2024_03_10 d_2024_03_31
                     = contagem_esperada d_2024_03_10 d_2024_03_31)
  /\ (-1440 < -180 < 0 /\ contarDiasUteis (-180) d_2024_03_10 d_2024_03_31
      = dias_nao_domingo (Z.to_nat (dia_numero d_2024_03_31 - dia_numero d_2024_03_10 + 1))
                         (dia_numero d_2024_03_10 - 1)).
Proof.
  split; split; try lia.
  - apply (proj1 (contarDiasUteis_por_fuso 60 d_2024_03_10 d_2024_03_31)). lia.
  - apply (proj2 (contarDiasUteis_por_fuso (-180) d_2024_03_10 d_2024_03_31)). lia.
Defined.

Lemma contarDiasUteis_intervalo_vazio_witness :
  dia_numero d_2024_03_10 < dia_numero d_2024_03_11
  /\ contarDiasUteis (-180) d_2024_03_11 d_2024_03_10 = 0.
Proof.
  split; [vm_compute; reflexivity|].
  apply contarDiasUteis_intervalo_vazio. vm_compute. reflexivity.
Defined.

Lemma dias_uteis_restantes_por_fuso_witness :
  (0 < 60 < 1440
   /\ dias_uteis_restantes 60 d_2024_04_10
      = dias_nao_domingo (Z.to_nat (ultimo_dia_mes d_2024_04_10 - dia_numero d_2024_04_10))
                         (dia_numero d_2024_04_10))
  /\ (-1440 < -180 < 0
   /\ dias_uteis_restantes (-180) d_2024_04_10
      = dias_nao_domingo (Z.to_nat (ultimo_dia_mes d_2024_04_10 - dia_numero d_2024_04_10 + 1))
                         (dia_numero d_2024_04_10 - 1)).
Proof.
  split; split; try lia.
  - apply (proj1 (proj2 (dias_uteis_restantes_por_fuso 60 d_2024_04_10))). lia.
  - apply (proj2 (proj2 (dias_uteis_restantes_por_fuso (-180) d_2024_04_10))). lia.
Defined.

Lemma calcularMetaDia_nao_negativa_witness :
  (forall v, In v (vendedoras db_exemplo) -> (0 <= numero_ou_zero (meta_padrao v))%Q)
  /\ (0 <= metaDia (calcularMetaDia (-180) db_exemplo 1 d_2024_03_11))%Q.
Proof.
  assert (H : forall v, In v (vendedoras db_exemplo) -> (0 <= numero_ou_zero (meta_padrao v))%Q).
  { intros v Hv. destruct Hv as [<-|[]]. vm_compute. discriminate. }
  split; [exact H|]. apply calcularMetaDia_nao_negativa. exact H.
Defined.

Lemma calcularMetaDia_ate_falta_witness :
  buscar_vendedora db_exemplo 1 = Some vendedora_1
  /\ ~ (numero_ou_zero (meta_mensal vendedora_1) == 0)%Q
  /\ (0 <= metaDia (calcularMetaDia 0 db_exemplo 1 d_2024_03_11)
        <= faltaNoMes (calcularMetaDia 0 db_exemplo 1 d_2024_03_11))%Q.
Proof.
  assert (Hv : buscar_vendedora db_exemplo 1 = Some vendedora_1) by reflexivity.
  assert (Hm : ~ (numero_ou_zero (meta_mensal vendedora_1) == 0)%Q) by (vm_compute; discriminate).
  split; [exact Hv|]. split; [exact Hm|].
  exact (calcularMetaDia_ate_falta 0 db_exemplo 1 d_2024_03_11 vendedora_1 Hv Hm).
Defined.

Lemma calcularMetaDia_monotona_witness :
  vendedoras db_exemplo = vendedoras db_mais_vendas
  /\ (vendidoNoMes (calcularMetaDia 0 db_exemplo 1 d_2024_03_11)
      <= vendidoNoMes (calcularMetaDia 0 db_mais_vendas 1 d_2024_03_11))%Q
  /\ (metaDia (calcularMetaDia 0 db_mais_vendas 1 d_2024_03_11)
      <= metaDia (calcularMetaDia 0 db_exemplo 1 d_2024_03_11))%Q.
Proof.
  assert (Hs : vendedoras db_exemplo = vendedoras db_mais_vendas) by reflexivity.
  assert (Hr : (vendidoNoMes (calcularMetaDia 0 db_exemplo 1 d_2024_03_11)
               <= vendidoNoMes (calcularMetaDia 0 db_mais_vendas 1 d_2024_03_11))%Q)
    by (vm_compute; discriminate).
  split; [exact Hs|]. split; [exact Hr|].
  exact (calcularMetaDia_monotona 0 db_exemplo db_mais_vendas 1 d_2024_03_11 Hs Hr).
Defined.

Lemma calcularMetaDia_ignora_venda_fora_witness :
  (venda_vendedora venda_abril <> 1
   \/ data_venda venda_abril < inicio_mes 0 d_2024_03_11
   \/ (dia_numero d_2024_03_11 + 1) * minutos_dia <= data_venda venda_abril)
  /\ calcularMetaDia (-180) (mkDb (vendedoras db_exemplo) (venda_abril :: vendas db_exemplo)
                                  (metas db_exemplo)) 1 d_2024_03_11
     = calcularMetaDia (-180) db_exemplo 1 d_2024_03_11.
Proof.
  assert (H : venda_vendedora venda_abril <> 1
              \/ data_venda venda_abril < inicio_mes 0 d_2024_03_11
              \/ (dia_numero d_2024_03_11 + 1) * minutos_dia <= data_venda venda_abril)
    by (right; right; vm_compute; discriminate).
  split; [exact H|]. apply calcularMetaDia_ignora_venda_fora. exact H.
Defined.

Lemma post_metas_get_metas_witness :
  autenticar db_exemplo (TokenValido 1) = inr vendedora_1
  /\ decimal_10_2 700 = Some (70000 # 100)%Q
  /\ get_metas (-180) (snd (post_metas db_exemplo (TokenValido 1) 700 d_2024_03_11))
               (TokenValido 1) d_2024_03_11
     = MetaDoDia (70000 # 100)
         (metaMensal (calcularMetaDia (-180) db_exemplo 1 d_2024_03_11))
         (vendidoNoMes (calcularMetaDia (-180) db_exemplo 1 d_2024_03_11))
         (faltaNoMes (calcularMetaDia (-180) db_exemplo 1 d_2024_03_11)).
Proof.
  assert (Ha : autenticar db_exemplo (TokenValido 1) = inr vendedora_1) by reflexivity.
  assert (Hd : decimal_10_2 700 = Some (70000 # 100)%Q) by (vm_compute; reflexivity).
  split; [exact Ha|]. split; [exact Hd|].
  exact (post_metas_get_metas (-180) db_exemplo (TokenValido 1) vendedora_1 700 (70000 # 100)
           d_2024_03_11 Ha Hd).
Defined.

Lemma post_metas_preserva_outras_witness :
  autenticar db_com_override (TokenValido 1) = inr vendedora_1
  /\ (1, d_2024_03_10) <> (vid vendedora_1, d_2024_03_11)
  /\ buscar_meta (metas (snd (post_metas db_com_override (TokenValido 1) 700 d_2024_03_11)))
                 1 d_2024_03_10
     = buscar_meta (metas db_com_override) 1 d_2024_03_10.
Proof.
  assert (Ha : autenticar db_com_override (TokenValido 1) = inr vendedora_1) by reflexivity.
  assert (Hn : (1, d_2024_03_10) <> (vid vendedora_1, d_2024_03_11))
    by (cbv [d_2024_03_10 d_2024_03_11 vid vendedora_1]; intro H; inversion H).
  split; [exact Ha|]. split; [exact Hn|].
  exact (post_metas_preserva_outras db_com_override (TokenValido 1) vendedora_1 700
           d_2024_03_11 1 d_2024_03_10 Ha Hn).
Defined.

Lemma calcularMetaDinamica_nao_negativa_monotona_witness :
  0 < diasUteisRestantes (-180) agora_2024_03_11
  /\ (0 <= calcularMetaDinamica (-180) agora_2024_03_11 30000 10000)%Q
  /\ (calcularMetaDinamica (-180) agora_2024_03_11 30000 12500
      <= calcularMetaDinamica (-180) agora_2024_03_11 30000 10000)%Q.
Proof.
  assert (Hn : 0 < diasUteisRestantes (-180) agora_2024_03_11) by (vm_compute; reflexivity).
  destruct (calcularMetaDinamica_nao_negativa_monotona (-180) agora_2024_03_11 30000 10000 12500 Hn)
    as [H1 H2].
  split; [exact Hn|]. split; [exact H1|]. apply H2. vm_compute. discriminate.
Defined.
